(** * lowlight: the background coordinator of the contrast extension

    A shallow embedding of [background.js].  The script is a set of event
    listeners over the host's extension API: it keeps a few filter settings
    in [chrome.storage.local] and pushes them to the content script of every
    http/https tab.

    - JavaScript values are the inductive [jsval]; objects used as records
      of settings are finite maps from property names to values.
    - The host (tabs, windows, the outcome of each API call) is a read-only
      record [Host]; what the script can change is the record [State]:
      the storage area, the messages handed to [chrome.tabs.sendMessage],
      the console, and the rejections nobody handled.
    - An [async] function body is a computation in the monad [M] (state and
      exceptions); [await] on a rejected promise throws, [try]/[catch] is
      [try_catch], a promise that is not awaited is [detach]ed. *)

From stdpp Require Import gmap strings list fin_maps.
From Stdlib Require Import ZArith.

Local Open Scope Z_scope.
Local Open Scope string_scope.

(** ** JavaScript values *)

(** The values that the storage area and the messages hold.  Every number
    the script handles is an integer (percent levels, window and tab ids),
    so numbers are [Z]. *)
Inductive jsval : Type :=
  | JUndefined
  | JNull
  | JBool (b : bool)
  | JNum (n : Z)
  | JStr (s : string).

(** ToBoolean: what [if (v)] and [!v] test. *)
Definition to_boolean (v : jsval) : bool :=
  match v with
  | JUndefined | JNull => false
  | JBool b => b
  | JNum n => negb (Z.eqb n 0)
  | JStr s => negb (String.eqb s "")
  end.

(** [a === b] on primitive values. *)
Definition strict_eq (a b : jsval) : bool :=
  match a, b with
  | JUndefined, JUndefined => true
  | JNull, JNull => true
  | JBool x, JBool y => Bool.eqb x y
  | JNum x, JNum y => Z.eqb x y
  | JStr x, JStr y => String.eqb x y
  | _, _ => false
  end.

(** [!v] *)
Definition js_not (v : jsval) : jsval := JBool (negb (to_boolean v)).

(** [o.k]: a property that the object lacks reads as [undefined]. *)
Definition prop (o : gmap string jsval) (k : string) : jsval :=
  default JUndefined (o !! k).

(** [{...target, ...src}]: the properties of [src] are copied over those
    already written. *)
Definition spread (src target : gmap string jsval) : gmap string jsval :=
  src ∪ target.

(** [s.includes(needle)] *)
Fixpoint includes (needle s : string) : bool :=
  String.prefix needle s ||
  match s with
  | EmptyString => false
  | String _ s' => includes needle s'
  end.

(** ** The host *)

Record Tab : Type := mkTab {
  tab_id : Z;
  tab_windowId : Z;
  tab_url : string
}.

(** A window as [chrome.windows.getLastFocused] reports it; [id] is an
    optional property of the API's window type. *)
Record Window : Type := mkWindow {
  window_id : option Z
}.

(** A rejection or exception: an [Error] object with its message. *)
Record JsError : Type := mkError {
  message : string
}.

(** The payload of the message sent to a content script. *)
Record Message : Type := mkMessage {
  action : string;
  enabled : bool;
  level : jsval;
  brightness : jsval;
  saturation : jsval
}.

(** What the host answers while one listener runs.  Each API call either
    resolves or rejects; [send_error] gives the fate of a message per tab. *)
Record Host : Type := mkHost {
  open_tabs : list Tab;
  last_focused : option Window;
  storage_get_error : option JsError;
  storage_set_error : option JsError;
  tabs_query_error : option JsError;
  windows_get_error : option JsError;
  send_error : Z → Message → option JsError
}.

(** One call of [chrome.tabs.sendMessage]: the tab, the payload and how the
    returned promise settles. *)
Record Sent : Type := mkSent {
  sent_to : Z;
  sent_msg : Message;
  sent_result : option JsError
}.

Record State : Type := mkState {
  storage : gmap string jsval;
  outbox : list Sent;
  console : list (string * JsError);
  unhandled : list JsError
}.

(** ** Computations *)

Inductive Outcome (A : Type) : Type :=
  | Ok (a : A)
  | Throw (e : JsError).
Arguments Ok {A} a.
Arguments Throw {A} e.

(** A settled promise. *)
Definition Promise (A : Type) : Type := Outcome A.

Definition M (A : Type) : Type := State → Outcome A * State.

Definition ret {A} (a : A) : M A := λ st, (Ok a, st).

Definition bind {A B} (m : M A) (k : A → M B) : M B :=
  λ st, match m st with
        | (Ok a, st') => k a st'
        | (Throw e, st') => (Throw e, st')
        end.

Declare Scope js_scope.
Delimit Scope js_scope with js.
Notation "'let*' x ':=' m 'in' k" := (bind m (λ x, k))
  (at level 10, x name, m at level 100, k at level 200) : js_scope.
Notation "m ';;;' k" := (bind m (λ _, k))
  (at level 100, k at level 200, right associativity) : js_scope.
Local Open Scope js_scope.

(** [await p] *)
Definition await {A} (p : Promise A) : M A := λ st, (p, st).

(** [try { m } catch (e) { handler e }] *)
Definition try_catch {A} (m : M A) (handler : JsError → M A) : M A :=
  λ st, match m st with
        | (Ok a, st') => (Ok a, st')
        | (Throw e, st') => handler e st'
        end.

(** [for (const x of l) { body x }] *)
Fixpoint for_of {A} (l : list A) (body : A → M unit) : M unit :=
  match l with
  | [] => ret tt
  | x :: l' => body x ;;; for_of l' body
  end.

(** [p.catch(handler)] *)
Definition promise_catch {A} (p : Promise A) (handler : JsError → Outcome A)
  : Promise A :=
  match p with
  | Ok a => Ok a
  | Throw e => handler e
  end.

(** A promise that the caller drops: a rejection then goes unhandled. *)
Definition detach {A} (p : Promise A) : M unit :=
  λ st, match p with
        | Ok _ => (Ok tt, st)
        | Throw e =>
            (Ok tt, mkState (storage st) (outbox st) (console st)
                            (unhandled st ++ [e]))
        end.

Definition console_error (label : string) (e : JsError) : M unit :=
  λ st, (Ok tt, mkState (storage st) (outbox st)
                        (console st ++ [(label, e)]) (unhandled st)).

Definition exec {A} (m : M A) (st : State) : State := snd (m st).
Definition result {A} (m : M A) (st : State) : Outcome A := fst (m st).

(** ** The extension API *)

Section WithHost.

Variable h : Host.

(** [chrome.storage.local.get(keys)]: the stored entries among [keys]. *)
Fixpoint pick (keys : list string) (o : gmap string jsval)
  : gmap string jsval :=
  match keys with
  | [] => ∅
  | k :: keys' =>
      match o !! k with
      | Some v => <[k := v]> (pick keys' o)
      | None => pick keys' o
      end
  end.

Definition storage_local_get (keys : list string)
  : M (Promise (gmap string jsval)) :=
  λ st, match storage_get_error h with
        | Some e => (Ok (Throw e), st)
        | None => (Ok (Ok (pick keys (storage st))), st)
        end.

(** [chrome.storage.local.set(items)]: a write that is rejected stores
    nothing. *)
Definition storage_local_set (items : gmap string jsval)
  : M (Promise unit) :=
  λ st, match storage_set_error h with
        | Some e => (Ok (Throw e), st)
        | None =>
            (Ok (Ok tt), mkState (items ∪ storage st) (outbox st)
                                 (console st) (unhandled st))
        end.

(** The match patterns ["http://*/*"] and ["https://*/*"]. *)
Definition matches_pattern (pattern url : string) : bool :=
  if String.eqb pattern "http://*/*" then String.prefix "http://" url
  else if String.eqb pattern "https://*/*" then String.prefix "https://" url
  else false.

Definition matches_any (patterns : list string) (t : Tab) : bool :=
  existsb (λ p, matches_pattern p (tab_url t)) patterns.

(** [chrome.tabs.query({ url: patterns })] *)
Definition tabs_query (patterns : list string) : M (Promise (list Tab)) :=
  λ st, match tabs_query_error h with
        | Some e => (Ok (Throw e), st)
        | None => (Ok (Ok (List.filter (matches_any patterns) (open_tabs h))), st)
        end.

(** [chrome.windows.getLastFocused({ populate: false, windowTypes: ['normal'] })] *)
Definition windows_getLastFocused : M (Promise (option Window)) :=
  λ st, match windows_get_error h with
        | Some e => (Ok (Throw e), st)
        | None => (Ok (Ok (last_focused h)), st)
        end.

(** [chrome.tabs.sendMessage(id, msg)]: the call itself never throws; the
    promise it returns is rejected when the tab does not take the
    message. *)
Definition tabs_sendMessage (id : Z) (msg : Message) : M (Promise unit) :=
  λ st,
    let r := send_error h id msg in
    (Ok (match r with Some e => Throw e | None => Ok tt end),
     mkState (storage st) (outbox st ++ [mkSent id msg r])
             (console st) (unhandled st)).

(** ** background.js *)

(** [lastFocused?.id] *)
Definition lastFocused_id (lastFocused : option Window) : jsval :=
  match lastFocused with
  | Some w => match window_id w with Some n => JNum n | None => JUndefined end
  | None => JUndefined
  end.

Definition updateActiveWindow : M unit :=
  try_catch
    (let* p := windows_getLastFocused in
     let* lastFocused := await p in
     if to_boolean (lastFocused_id lastFocused) then
       let* q := storage_local_set {[ "activeWindowId" := lastFocused_id lastFocused ]} in
       await q
     else ret tt)
    (λ e, console_error "Could not update active window:" e).

Definition settings_keys : list string :=
  [ "contrastEnabled"; "contrastLevel"; "brightnessLevel";
    "saturationLevel"; "scope"; "activeWindowId" ].

(** The object literal that [finalSettings] is bound to. *)
Definition finalSettings (settings : gmap string jsval) : gmap string jsval :=
  spread settings
    (<["scope" := JStr "all"]>
       (<["saturationLevel" := JNum 100]>
          (<["brightnessLevel" := JNum 100]>
             (<["contrastLevel" := JNum 100]>
                (<["contrastEnabled" := JBool false]> ∅))))).

(** The value of the variable [apply] once the [if] of the loop body is
    through. *)
Definition apply_flag (fs : gmap string jsval) (tab : Tab) : bool :=
  if to_boolean (prop fs "contrastEnabled") then
    if strict_eq (prop fs "scope") (JStr "all") then true
    else if strict_eq (prop fs "scope") (JStr "window")
            && strict_eq (JNum (tab_windowId tab)) (prop fs "activeWindowId")
    then true
    else false
  else false.

(** The object literal passed to [sendMessage]. *)
Definition payload (fs : gmap string jsval) (tab : Tab) : Message :=
  {| action := "applyStyle";
     enabled := apply_flag fs tab;
     level := prop fs "contrastLevel";
     brightness := prop fs "brightnessLevel";
     saturation := prop fs "saturationLevel" |}.

(** The arrow function given to [.catch]: both branches are empty. *)
Definition on_send_error (error : JsError) : Outcome unit :=
  if negb (includes "Receiving end does not exist" (message error))
  then Ok tt
  else Ok tt.

Definition applyStylesToTabs : M unit :=
  try_catch
    (let* p := storage_local_get settings_keys in
     let* settings := await p in
     let fs := finalSettings settings in
     let* q := tabs_query [ "http://*/*"; "https://*/*" ] in
     let* tabs := await q in
     for_of tabs (λ tab,
       let* r := tabs_sendMessage (tab_id tab) (payload fs tab) in
       detach (promise_catch r on_send_error)))
    (λ e, console_error "Error in applyStylesToTabs:" e).

(** [chrome.windows.onFocusChanged] *)
Definition onFocusChanged (windowId : Z) : M unit :=
  if Z.ltb 0 windowId then
    updateActiveWindow ;;; applyStylesToTabs
  else ret tt.

(** [chrome.storage.onChanged]: the listener is [applyStylesToTabs]
    itself. *)
Definition storage_onChanged : M unit := applyStylesToTabs.

(** [chrome.commands.onCommand] *)
Definition onCommand (command : string) : M unit :=
  if String.eqb command "toggle-contrast" then
    let* p := storage_local_get [ "contrastEnabled" ] in
    let* r := await p in
    let contrastEnabled := prop r "contrastEnabled" in
    let* q := storage_local_set {[ "contrastEnabled" := js_not contrastEnabled ]} in
    await q
  else ret tt.

End WithHost.

(** [chrome.windows.WINDOW_ID_NONE], the id delivered when no window has
    the focus. *)
Definition WINDOW_ID_NONE : Z := -1.

(** The object that the [onInstalled] listener stores on a first install. *)
Definition install_defaults : gmap string jsval :=
  <["scope" := JStr "all"]>
    (<["saturationLevel" := JNum 100]>
       (<["brightnessLevel" := JNum 100]>
          (<["contrastLevel" := JNum 100]>
             (<["contrastEnabled" := JBool false]> ∅)))).

(** ** Observing a pass *)

(** The tabs that the query of [applyStylesToTabs] resolves to. *)
Definition enumerated (h : Host) : list Tab :=
  List.filter (matches_any [ "http://*/*"; "https://*/*" ]) (open_tabs h).

(** The settings that a pass works with, given the storage area. *)
Definition merged (s : gmap string jsval) : gmap string jsval :=
  finalSettings (pick settings_keys s).

(** The record of the send for one tab. *)
Definition sent_for (h : Host) (fs : gmap string jsval) (tab : Tab) : Sent :=
  mkSent (tab_id tab) (payload fs tab)
         (send_error h (tab_id tab) (payload fs tab)).

Definition with_outbox (st : State) (more : list Sent) : State :=
  mkState (storage st) (outbox st ++ more) (console st) (unhandled st).

Definition with_console (st : State) (label : string) (e : JsError) : State :=
  mkState (storage st) (outbox st) (console st ++ [(label, e)]) (unhandled st).

Definition with_storage (st : State) (s : gmap string jsval) : State :=
  mkState s (outbox st) (console st) (unhandled st).

(** What the host passes to the [onFocusChanged] listener: the id of the
    window that got the focus, which is positive, or [WINDOW_ID_NONE]. *)
Definition delivered_window_id (windowId : Z) : Prop :=
  windowId = WINDOW_ID_NONE ∨ (0 < windowId)%Z.

(** The value of the setting [k] that a pass works with when the storage
    area is [s]: [finalSettings.k]. *)
Definition setting (s : gmap string jsval) (k : string) : jsval :=
  prop (merged s) k.

(** What one pass hands to [sendMessage] and writes to the console. *)
Definition batch (h : Host) (s : gmap string jsval) : list Sent :=
  match storage_get_error h, tabs_query_error h with
  | None, None => map (sent_for h (merged s)) (enumerated h)
  | _, _ => []
  end.

Definition errors_logged (h : Host) : list (string * JsError) :=
  match storage_get_error h, tabs_query_error h with
  | Some e, _ => [("Error in applyStylesToTabs:", e)]
  | None, Some e => [("Error in applyStylesToTabs:", e)]
  | None, None => []
  end.

(** ** Sample data *)

Module Sample.

Definition gone : JsError :=
  mkError "Could not establish connection. Receiving end does not exist.".

Definition unavailable : JsError := mkError "Storage is not available.".

Definition tab1 : Tab := mkTab 1 10 "https://a".
Definition tab2 : Tab := mkTab 2 11 "http://b".
Definition tab3 : Tab := mkTab 3 10 "chrome://settings".

(** Three open tabs; the content script of the first is not there yet. *)
Definition host : Host :=
  mkHost [tab1; tab2; tab3] (Some (mkWindow (Some 11))) None None None None
         (λ id _, if Z.eqb id 1 then Some gone else None).

Definition store_all : gmap string jsval :=
  <["contrastEnabled" := JBool true]>
    (<["contrastLevel" := JNum 80]>
       (<["brightnessLevel" := JNum 110]>
          (<["saturationLevel" := JNum 100]>
             (<["scope" := JStr "all"]> ∅)))).

Definition store_window : gmap string jsval :=
  <["scope" := JStr "window"]> (<["activeWindowId" := JNum 10]> store_all).

Definition store_no_window : gmap string jsval :=
  <["scope" := JStr "window"]> store_all.

Definition fresh (s : gmap string jsval) : State := mkState s [] [] [].

End Sample.

(** ** The other listeners *)

(** A call [f()] of an [async] function: the call itself never throws, and
    the outcome of the body is the promise that the call returns.  The
    state after the call is the one reached once the body that was started
    has run to its end. *)
Definition call_async {A} (body : M A) : M (Promise A) :=
  λ st, let '(r, st') := body st in (Ok r, st').

(** The five filter keys that [finalSettings] and the install listener
    write. *)
Definition filter_keys : list string :=
  [ "contrastEnabled"; "contrastLevel"; "brightnessLevel";
    "saturationLevel"; "scope" ].

(** [chrome.runtime.onInstalled]; [details] is the object that the host
    passes.  The last call is not awaited. *)
Definition onInstalled (h : Host) (details : gmap string jsval) : M unit :=
  (if strict_eq (prop details "reason") (JStr "install") then
     let* p := storage_local_set h install_defaults in
     await p
   else ret tt) ;;;
  updateActiveWindow h ;;;
  let* q := call_async (applyStylesToTabs h) in
  detach q.

(** [chrome.runtime.onStartup] *)
Definition onStartup (h : Host) : M unit :=
  updateActiveWindow h ;;;
  let* q := call_async (applyStylesToTabs h) in
  detach q.

(** [chrome.tabs.onUpdated] *)
Definition onUpdated (h : Host) (tabId : Z) (changeInfo : gmap string jsval)
  : M unit :=
  if strict_eq (prop changeInfo "status") (JStr "complete") then
    let* q := call_async (applyStylesToTabs h) in
    detach q
  else ret tt.

(** [chrome.windows.onCreated]: the listener is [applyStylesToTabs]
    itself. *)
Definition windows_onCreated (h : Host) : M unit := applyStylesToTabs h.

(** [chrome.runtime.onMessage]; [msg] and [sender] are objects, the third
    parameter [sendResponse] is never called.  The value is what the
    listener returns. *)
Definition onMessage (h : Host) (msg sender : gmap string jsval) : M jsval :=
  (if strict_eq (prop msg "action") (JStr "getCurrentSettings") then
     let* q := call_async (applyStylesToTabs h) in
     detach q
   else ret tt) ;;;
  ret (JBool true).

(** The message that a pass sends while the filter is at its defaults. *)
Definition default_message : Message :=
  mkMessage "applyStyle" false (JNum 100) (JNum 100) (JNum 100).

(** Sample arguments of the listeners. *)
Module Event.

Definition install : gmap string jsval := {[ "reason" := JStr "install" ]}.
Definition update : gmap string jsval := {[ "reason" := JStr "update" ]}.
Definition complete : gmap string jsval := {[ "status" := JStr "complete" ]}.
Definition loading : gmap string jsval := {[ "status" := JStr "loading" ]}.
Definition ask : gmap string jsval := {[ "action" := JStr "getCurrentSettings" ]}.
Definition other : gmap string jsval := {[ "action" := JStr "ping" ]}.

(** A host whose storage area rejects every write. *)
Definition read_only : Host :=
  mkHost [Sample.tab1] (Some (mkWindow (Some 11))) None
         (Some Sample.unavailable) None None (λ _ _, None).

(** A host whose storage area rejects every read. *)
Definition unreadable : Host :=
  mkHost [Sample.tab1] (Some (mkWindow (Some 11))) (Some Sample.unavailable)
         None None None (λ _ _, None).

End Event.

(** ** Basic facts *)

Lemma with_outbox_nil st : with_outbox st [] = st.
Proof. destruct st; unfold with_outbox; simpl. by rewrite app_nil_r. Qed.

Lemma with_outbox_app st l1 l2 :
  with_outbox (with_outbox st l1) l2 = with_outbox st (l1 ++ l2).
Proof. unfold with_outbox; simpl. by rewrite app_assoc. Qed.

Lemma lookup_pick (keys : list string) (o : gmap string jsval) (k : string) :
  pick keys o !! k = if decide (k ∈ keys) then o !! k else None.
Proof.
  induction keys as [|k' keys IH]; cbn [pick].
  - rewrite lookup_empty.
    destruct (decide (k ∈ [])) as [H|]; [by apply elem_of_nil in H | done].
  - destruct (decide (k = k')) as [->|Hne].
    + rewrite (decide_True (P := k' ∈ k' :: keys)) by set_solver.
      destruct (o !! k') as [v|] eqn:Hk'.
      * by rewrite lookup_insert_eq.
      * rewrite IH. by destruct (decide (k' ∈ keys)).
    + assert (Hiff : k ∈ k' :: keys ↔ k ∈ keys)
        by (rewrite elem_of_cons; split; [intros [?|?]; [congruence|done] | by right]).
      rewrite (decide_ext _ _ _ _ Hiff).
      destruct (o !! k') as [v|]; [|done].
      by rewrite lookup_insert_ne.
Qed.

Lemma lookup_finalSettings (settings : gmap string jsval) (k : string) :
  finalSettings settings !! k =
  match settings !! k with
  | Some v => Some v
  | None => install_defaults !! k
  end.
Proof.
  unfold finalSettings, spread.
  destruct (settings !! k) as [v|] eqn:Hk.
  - by apply lookup_union_Some_l.
  - by rewrite lookup_union_r.
Qed.

Lemma lookup_merged (s : gmap string jsval) (k : string) :
  k ∈ settings_keys →
  merged s !! k =
  match s !! k with
  | Some v => Some v
  | None => install_defaults !! k
  end.
Proof.
  intros Hk. unfold merged. rewrite lookup_finalSettings, lookup_pick.
  by rewrite decide_True.
Qed.

Lemma on_send_error_ok (e : JsError) : on_send_error e = Ok tt.
Proof. unfold on_send_error. by destruct (negb _). Qed.

(** The loop of [applyStylesToTabs] goes through the whole list: each
    iteration records its send and leaves everything else alone. *)
Lemma loop_run (h : Host) (fs : gmap string jsval) (tabs : list Tab) (st : State) :
  for_of tabs (λ tab,
    let* r := tabs_sendMessage h (tab_id tab) (payload fs tab) in
    detach (promise_catch r on_send_error)) st
  = (Ok tt, with_outbox st (map (sent_for h fs) tabs)).
Proof.
  revert st. induction tabs as [|tab tabs IH]; intros st; simpl.
  - unfold ret. by rewrite with_outbox_nil.
  - unfold bind at 1. unfold bind at 1. unfold tabs_sendMessage at 1.
    assert (Hd : ∀ st',
      detach (promise_catch
        (match send_error h (tab_id tab) (payload fs tab) with
         | Some e => Throw e | None => Ok tt end) on_send_error) st'
      = (Ok tt, st')).
    { intros st'. destruct (send_error _ _ _); simpl;
        [rewrite on_send_error_ok|]; reflexivity. }
    rewrite Hd. rewrite IH.
    change (mkState _ _ _ _) with (with_outbox st [sent_for h fs tab]).
    by rewrite with_outbox_app.
Qed.

(** One pass, in full. *)
Lemma applyStylesToTabs_run (h : Host) (st : State) :
  applyStylesToTabs h st =
  match storage_get_error h, tabs_query_error h with
  | Some e, _ => (Ok tt, with_console st "Error in applyStylesToTabs:" e)
  | None, Some e => (Ok tt, with_console st "Error in applyStylesToTabs:" e)
  | None, None =>
      (Ok tt, with_outbox st (map (sent_for h (merged (storage st))) (enumerated h)))
  end.
Proof.
  unfold applyStylesToTabs, try_catch.
  unfold bind at 1. unfold storage_local_get.
  destruct (storage_get_error h) as [e|]; [reflexivity|].
  unfold bind at 1. unfold await at 1.
  unfold bind at 1. unfold tabs_query.
  destruct (tabs_query_error h) as [e|]; [reflexivity|].
  unfold bind at 1. unfold await at 1.
  by rewrite loop_run.
Qed.

Lemma applyStylesToTabs_result (h : Host) (st : State) :
  result (applyStylesToTabs h) st = Ok tt.
Proof.
  unfold result. rewrite applyStylesToTabs_run.
  by destruct (storage_get_error h), (tabs_query_error h).
Qed.

Lemma applyStylesToTabs_storage (h : Host) (st : State) :
  storage (exec (applyStylesToTabs h) st) = storage st.
Proof.
  unfold exec. rewrite applyStylesToTabs_run.
  by destruct (storage_get_error h), (tabs_query_error h).
Qed.

(** One run of [updateActiveWindow], in full. *)
Lemma updateActiveWindow_run (h : Host) (st : State) :
  updateActiveWindow h st =
  match windows_get_error h with
  | Some e => (Ok tt, with_console st "Could not update active window:" e)
  | None =>
      if to_boolean (lastFocused_id (last_focused h)) then
        match storage_set_error h with
        | Some e => (Ok tt, with_console st "Could not update active window:" e)
        | None =>
            (Ok tt, with_storage st
               (<["activeWindowId" := lastFocused_id (last_focused h)]> (storage st)))
        end
      else (Ok tt, st)
  end.
Proof.
  unfold updateActiveWindow, try_catch.
  unfold bind at 1. unfold windows_getLastFocused.
  destruct (windows_get_error h) as [e|]; [reflexivity|].
  unfold bind at 1. unfold await at 1.
  destruct (to_boolean _); [|reflexivity].
  unfold bind, storage_local_set, await.
  destruct (storage_set_error h) as [e|]; [reflexivity|].
  unfold with_storage. by rewrite insert_union_singleton_l.
Qed.

Lemma updateActiveWindow_result (h : Host) (st : State) :
  result (updateActiveWindow h) st = Ok tt.
Proof.
  unfold result. rewrite updateActiveWindow_run.
  destruct (windows_get_error h); [done|].
  destruct (to_boolean _); [|done].
  by destruct (storage_set_error h).
Qed.

(** One run of the command listener on ["toggle-contrast"], in full.  The
    listener has no [try]: a rejected read or write ends it. *)
Lemma onCommand_toggle_run (h : Host) (st : State) :
  onCommand h "toggle-contrast" st =
  match storage_get_error h with
  | Some e => (Throw e, st)
  | None =>
      match storage_set_error h with
      | Some e => (Throw e, st)
      | None =>
          (Ok tt, with_storage st
             (<["contrastEnabled" := js_not (prop (storage st) "contrastEnabled")]>
                (storage st)))
      end
  end.
Proof.
  unfold onCommand. cbn [String.eqb Ascii.eqb Bool.eqb].
  unfold bind at 1. unfold storage_local_get.
  destruct (storage_get_error h) as [e|]; [reflexivity|].
  unfold bind at 1. unfold await at 1.
  unfold bind, storage_local_set, await.
  destruct (storage_set_error h) as [e|]; [reflexivity|].
  unfold with_storage. rewrite insert_union_singleton_l.
  unfold prop. rewrite lookup_pick. by rewrite decide_True by set_solver.
Qed.

Lemma onCommand_other_run (h : Host) (command : string) (st : State) :
  command ≠ "toggle-contrast" → onCommand h command st = (Ok tt, st).
Proof.
  intros Hne. unfold onCommand.
  destruct (String.eqb_spec command "toggle-contrast"); [done|reflexivity].
Qed.

Lemma setting_present (s : gmap string jsval) (k : string) (v : jsval) :
  k ∈ settings_keys → s !! k = Some v → setting s k = v.
Proof.
  intros Hk Hv. unfold setting, prop. by rewrite lookup_merged, Hv.
Qed.

Lemma setting_absent (s : gmap string jsval) (k : string) :
  k ∈ settings_keys → s !! k = None → setting s k = prop install_defaults k.
Proof.
  intros Hk Hv. unfold setting, prop. by rewrite lookup_merged, Hv.
Qed.

(** On the values that the extension stores under [contrastEnabled], the
    test of the loop is the stored boolean, and [false] when there is
    none. *)
Lemma contrastEnabled_boolean (s : gmap string jsval) :
  (∀ b, s !! "contrastEnabled" = Some (JBool b) →
        to_boolean (setting s "contrastEnabled") = b)
  ∧ (s !! "contrastEnabled" = None →
     to_boolean (setting s "contrastEnabled") = false).
Proof.
  assert (Hkey : "contrastEnabled" ∈ settings_keys) by (apply list_elem_of_here).
  split.
  - intros b Hb. by rewrite (setting_present s _ _ Hkey Hb).
  - intros Hnone. by rewrite (setting_absent s _ Hkey Hnone).
Qed.

(** The flag [apply] as one boolean expression. *)
Lemma apply_flag_eq (fs : gmap string jsval) (tab : Tab) :
  apply_flag fs tab =
  to_boolean (prop fs "contrastEnabled")
  && (strict_eq (prop fs "scope") (JStr "all")
      || strict_eq (prop fs "scope") (JStr "window")
         && strict_eq (JNum (tab_windowId tab)) (prop fs "activeWindowId")).
Proof.
  unfold apply_flag.
  destruct (to_boolean _); [|done].
  destruct (strict_eq (prop fs "scope") (JStr "all")); [done|].
  by destruct (_ && _).
Qed.

Lemma strict_eq_str (v : jsval) (s : string) :
  strict_eq v (JStr s) = true ↔ v = JStr s.
Proof.
  destruct v as [| |b|n|s']; simpl; try (split; [done|by intros [=]]).
  rewrite String.eqb_eq. split; [by intros ->|by intros [= ->]].
Qed.

Lemma strict_eq_num (n : Z) (v : jsval) :
  strict_eq (JNum n) v = true ↔ v = JNum n.
Proof.
  destruct v as [| |b|m|s']; simpl; try (split; [done|by intros [=]]).
  rewrite Z.eqb_eq. split; [by intros ->|by intros [= ->]].
Qed.

(** The two scenarios of the specification. *)
Example scenario_all :
  map (λ s, (sent_to s, sent_msg s))
      (outbox (exec (applyStylesToTabs Sample.host) (Sample.fresh Sample.store_all)))
  = [ (1, mkMessage "applyStyle" true (JNum 80) (JNum 110) (JNum 100));
      (2, mkMessage "applyStyle" true (JNum 80) (JNum 110) (JNum 100)) ].
Proof. vm_compute. reflexivity. Qed.

Example scenario_window :
  map (λ s, (sent_to s, enabled (sent_msg s)))
      (outbox (exec (applyStylesToTabs Sample.host) (Sample.fresh Sample.store_window)))
  = [ (1, true); (2, false) ].
Proof. vm_compute. reflexivity. Qed.

(** ** The propagation policy *)

(** C1.  When the storage read and the tab query succeed, a pass sends one
    message to each enumerated http/https tab, and the [enabled] flag of the
    message for a tab follows the policy, stated on the settings as merged
    with the defaults.  The source tests [contrastEnabled] as a condition:
    [on] below is that test, which on a stored boolean is the boolean
    itself (lemma [contrastEnabled_boolean]).  With [contrastEnabled] not
    on, the flag is [false]; with it on and scope ['all'] the flag is
    [true]; with it on and scope ['window'] the flag is [true] exactly when
    the stored [activeWindowId] is the window id of the tab; with it on and
    any other scope the flag is [false]. *)
Theorem applyStylesToTabs_policy (h : Host) (st : State) :
  storage_get_error h = None →
  tabs_query_error h = None →
  outbox (exec (applyStylesToTabs h) st)
    = (outbox st ++ map (sent_for h (merged (storage st))) (enumerated h))%list
  ∧ ∀ tab, In tab (enumerated h) →
      let on := to_boolean (setting (storage st) "contrastEnabled") in
      let scope := setting (storage st) "scope" in
      let sent := enabled (sent_msg (sent_for h (merged (storage st)) tab)) in
      (on = false → sent = false)
      ∧ (on = true → scope = JStr "all" → sent = true)
      ∧ (on = true → scope = JStr "window" →
           (sent = true ↔
            setting (storage st) "activeWindowId" = JNum (tab_windowId tab)))
      ∧ (on = true → scope ≠ JStr "all" → scope ≠ JStr "window" → sent = false).
Proof.
  intros Hget Hquery. split.
  - unfold exec. by rewrite applyStylesToTabs_run, Hget, Hquery.
  - intros tab _. cbn zeta. unfold sent_for, payload, setting. cbn [sent_msg enabled].
    rewrite apply_flag_eq.
    set (fs := merged (storage st)).
    split; [|split; [|split]].
    + by intros ->.
    + intros -> ->. reflexivity.
    + intros -> ->. cbn [strict_eq String.eqb Ascii.eqb Bool.eqb andb orb].
      apply strict_eq_num.
    + intros -> Hall Hwin.
      destruct (strict_eq (prop fs "scope") (JStr "all")) eqn:E1;
        [by apply strict_eq_str in E1|].
      destruct (strict_eq (prop fs "scope") (JStr "window")) eqn:E2;
        [by apply strict_eq_str in E2|].
      reflexivity.
Qed.

Lemma applyStylesToTabs_policy_witness :
  In Sample.tab1 (enumerated Sample.host)
  ∧ setting Sample.store_window "scope" = JStr "window"
  ∧ enabled (sent_msg (sent_for Sample.host (merged Sample.store_window) Sample.tab1)) = true.
Proof.
  assert (Hin : In Sample.tab1 (enumerated Sample.host)) by (left; reflexivity).
  split; [exact Hin|]. split; [reflexivity|].
  destruct (applyStylesToTabs_policy Sample.host (Sample.fresh Sample.store_window)
              eq_refl eq_refl) as [_ Hpolicy].
  destruct (Hpolicy Sample.tab1 Hin) as (_ & _ & Hwindow & _).
  apply Hwindow; reflexivity.
Defined.

(** ** Merging with the defaults *)

Lemma merged_empty : merged ∅ = install_defaults.
Proof. vm_compute. reflexivity. Qed.

Lemma merged_install_defaults : merged install_defaults = install_defaults.
Proof. vm_compute. reflexivity. Qed.

(** C2.  A pass over an empty storage area does exactly what a pass over a
    storage area holding the defaults does: same result, same sends with the
    same payloads, same console output; this for every host, whether its
    calls succeed or not. *)
Theorem default_merge_law (h : Host) (st : State) :
  let empty := exec (applyStylesToTabs h) (with_storage st ∅) in
  let explicit := exec (applyStylesToTabs h) (with_storage st install_defaults) in
  outbox empty = outbox explicit
  ∧ console empty = console explicit
  ∧ unhandled empty = unhandled explicit
  ∧ result (applyStylesToTabs h) (with_storage st ∅)
    = result (applyStylesToTabs h) (with_storage st install_defaults)
  ∧ install_defaults !! "activeWindowId" = None.
Proof.
  cbn zeta. unfold exec, result. rewrite !applyStylesToTabs_run.
  destruct (storage_get_error h) as [e|]; [done|].
  destruct (tabs_query_error h) as [e|]; [done|].
  cbn [with_storage storage snd fst with_outbox outbox console unhandled].
  by rewrite merged_empty, merged_install_defaults.
Qed.

(** C3.  In the merged settings a key that the storage read returned keeps
    the value read, whatever that value is; a default shows only under a
    key that the read did not return. *)
Theorem finalSettings_present_wins (settings : gmap string jsval) (k : string) :
  (∀ v, settings !! k = Some v →
        finalSettings settings !! k = Some v ∧ prop (finalSettings settings) k = v)
  ∧ (settings !! k = None → finalSettings settings !! k = install_defaults !! k).
Proof.
  split.
  - intros v Hv. unfold prop. by rewrite lookup_finalSettings, Hv.
  - intros Hv. by rewrite lookup_finalSettings, Hv.
Qed.

(** Stored [false] and [0] are not taken for missing. *)
Lemma finalSettings_present_wins_witness :
  prop (finalSettings (<["contrastLevel" := JNum 0]> {[ "contrastEnabled" := JBool false ]}))
       "contrastLevel" = JNum 0
  ∧ prop (finalSettings (<["contrastLevel" := JNum 0]> {[ "contrastEnabled" := JBool false ]}))
         "contrastEnabled" = JBool false.
Proof.
  split.
  - apply (finalSettings_present_wins _ "contrastLevel"). reflexivity.
  - apply (finalSettings_present_wins _ "contrastEnabled"). reflexivity.
Defined.

(** What the storage read returns: the stored entries under the six keys. *)
Lemma storage_read_present (s : gmap string jsval) (k : string) (v : jsval) :
  pick settings_keys s !! k = Some v ↔ k ∈ settings_keys ∧ s !! k = Some v.
Proof.
  rewrite lookup_pick.
  destruct (decide (k ∈ settings_keys)) as [Hin|Hout];
    split; [by intros ? | by intros [_ ?] | done | by intros [? _]].
Qed.

Example zero_level_is_sent (h : Host) (tab : Tab) :
  level (payload (merged {[ "contrastLevel" := JNum 0 ]}) tab) = JNum 0.
Proof. reflexivity. Qed.

(** ** Repeating a pass *)

Lemma applyStylesToTabs_exec (h : Host) (st : State) :
  exec (applyStylesToTabs h) st =
  mkState (storage st) (outbox st ++ batch h (storage st))
          (console st ++ errors_logged h) (unhandled st).
Proof.
  unfold exec, batch, errors_logged. rewrite applyStylesToTabs_run.
  destruct st as [s ob con un].
  destruct (storage_get_error h) as [e|]; [|destruct (tabs_query_error h) as [e|]];
    unfold with_console, with_outbox; simpl; by rewrite ?app_nil_r.
Qed.

Lemma batch_all_off (h : Host) (s : gmap string jsval) :
  (∀ tab, enabled (payload (merged s) tab) = false) →
  Forall (λ m, enabled (sent_msg m) = false) (batch h s).
Proof.
  intros Hoff. unfold batch.
  destruct (storage_get_error h); [constructor|].
  destruct (tabs_query_error h); [constructor|].
  apply Forall_forall. intros m Hm. apply list_elem_of_In in Hm.
  apply in_map_iff in Hm as (tab & <- & _). apply Hoff.
Qed.

(** C4.  Two passes in a row, over the same host: the second sends the very
    messages of the first (so each enumerated tab gets the same payload
    twice), logs what the first logged, and neither changes the storage
    area or leaves a rejection unhandled. *)
Theorem applyStylesToTabs_idempotent (h : Host) (st : State) :
  let once := exec (applyStylesToTabs h) st in
  let twice := exec (applyStylesToTabs h) once in
  outbox once = (outbox st ++ batch h (storage st))%list
  ∧ outbox twice = (outbox once ++ batch h (storage st))%list
  ∧ console once = (console st ++ errors_logged h)%list
  ∧ console twice = (console once ++ errors_logged h)%list
  ∧ storage once = storage st
  ∧ storage twice = storage st
  ∧ unhandled once = unhandled st
  ∧ unhandled twice = unhandled st
  ∧ (storage_get_error h = None → tabs_query_error h = None →
     batch h (storage st) = map (sent_for h (merged (storage st))) (enumerated h)
     ∧ errors_logged h = []).
Proof.
  cbn zeta. rewrite !applyStylesToTabs_exec. cbn [storage outbox console unhandled].
  repeat (split; [reflexivity|]).
  intros Hget Hquery. unfold batch, errors_logged. by rewrite Hget, Hquery.
Qed.

Lemma applyStylesToTabs_idempotent_witness :
  map (λ s, (sent_to s, enabled (sent_msg s)))
      (outbox (exec (applyStylesToTabs Sample.host)
                 (exec (applyStylesToTabs Sample.host) (Sample.fresh Sample.store_window))))
  = [ (1, true); (2, false); (1, true); (2, false) ].
Proof.
  destruct (applyStylesToTabs_idempotent Sample.host (Sample.fresh Sample.store_window))
    as (H1 & H2 & _).
  cbn zeta in H1, H2. rewrite H2, H1. vm_compute. reflexivity.
Defined.

(** ** Failing sends *)

(** C5.  Take any list of open tabs and any assignment of failures to
    sends ([fails] says, per tab and payload, whether the promise of
    [sendMessage] is rejected and with which error).  With the storage read
    and the tab query succeeding, the pass calls [sendMessage] once for
    every enumerated tab, in order, with the payload computed for that tab;
    it ends normally, logs nothing and leaves no rejection unhandled. *)
Theorem send_failures_are_swallowed
    (tabs : list Tab) (fails : Z → Message → option JsError)
    (focused : option Window) (set_error get_focused_error : option JsError)
    (st : State) :
  let h := mkHost tabs focused None set_error None get_focused_error fails in
  let fs := merged (storage st) in
  let st' := exec (applyStylesToTabs h) st in
  outbox st' = (outbox st ++ map (sent_for h fs) (enumerated h))%list
  ∧ (∀ tab, In tab (enumerated h) →
       In (mkSent (tab_id tab) (payload fs tab) (fails (tab_id tab) (payload fs tab)))
          (outbox st'))
  ∧ result (applyStylesToTabs h) st = Ok tt
  ∧ storage st' = storage st
  ∧ console st' = console st
  ∧ unhandled st' = unhandled st.
Proof.
  cbn zeta. set (h := mkHost _ _ _ _ _ _ _).
  rewrite applyStylesToTabs_exec, applyStylesToTabs_result.
  unfold batch, errors_logged. cbn [storage_get_error tabs_query_error h].
  cbn [storage outbox console unhandled]. rewrite app_nil_r.
  split; [reflexivity|]. split; [|done].
  intros tab Hin. apply in_or_app. right.
  apply in_map_iff. exists tab. split; [reflexivity|exact Hin].
Qed.

(** The scenario of the specification: the first tab has no content script
    yet, the second still gets its message. *)
Example absent_receiver_scenario :
  map (λ s, (sent_to s, sent_result s))
      (outbox (exec (applyStylesToTabs Sample.host) (Sample.fresh Sample.store_all)))
  = [ (1, Some Sample.gone); (2, None) ].
Proof. vm_compute. reflexivity. Qed.

(** For contrast: a loop that awaited each send would stop at the first
    rejection.  The listener does not await, it attaches [.catch]. *)
Example awaited_send_would_stop :
  let body tab :=
    (let* r := tabs_sendMessage Sample.host (tab_id tab)
                 (payload (merged Sample.store_all) tab) in
     await r) in
  let run := for_of (enumerated Sample.host) body (Sample.fresh Sample.store_all) in
  fst run = Throw Sample.gone ∧ map sent_to (outbox (snd run)) = [1].
Proof. vm_compute. split; reflexivity. Qed.

(** ** What a pass leaves alone *)

(** C6.  A pass never changes the storage area and never throws.  When the
    storage read or the tab query is rejected, the pass sends nothing: all
    it does is log the error.  When both succeed, all it does is send. *)
Theorem applyStylesToTabs_frame (h : Host) (st : State) :
  storage (exec (applyStylesToTabs h) st) = storage st
  ∧ unhandled (exec (applyStylesToTabs h) st) = unhandled st
  ∧ result (applyStylesToTabs h) st = Ok tt
  ∧ (∀ e, storage_get_error h = Some e →
       exec (applyStylesToTabs h) st = with_console st "Error in applyStylesToTabs:" e)
  ∧ (∀ e, storage_get_error h = None → tabs_query_error h = Some e →
       exec (applyStylesToTabs h) st = with_console st "Error in applyStylesToTabs:" e)
  ∧ (storage_get_error h = None → tabs_query_error h = None →
       exec (applyStylesToTabs h) st
       = with_outbox st (map (sent_for h (merged (storage st))) (enumerated h))).
Proof.
  split; [apply applyStylesToTabs_storage|].
  split; [by rewrite applyStylesToTabs_exec|].
  split; [apply applyStylesToTabs_result|].
  unfold exec. rewrite applyStylesToTabs_run.
  split; [|split].
  - by intros e ->.
  - by intros e -> ->.
  - by intros -> ->.
Qed.

Lemma applyStylesToTabs_frame_witness :
  let h := mkHost [Sample.tab1] None (Some Sample.unavailable) None None None
                  (λ _ _, None) in
  let st' := exec (applyStylesToTabs h) (Sample.fresh Sample.store_all) in
  storage st' = Sample.store_all ∧ outbox st' = []
  ∧ console st' = [("Error in applyStylesToTabs:", Sample.unavailable)].
Proof.
  cbn zeta.
  destruct (applyStylesToTabs_frame
              (mkHost [Sample.tab1] None (Some Sample.unavailable) None None None
                      (λ _ _, None))
              (Sample.fresh Sample.store_all)) as (Hs & _ & _ & Hget & _).
  split; [exact Hs|]. rewrite (Hget Sample.unavailable eq_refl). split; reflexivity.
Defined.

(** ** The keyboard command *)

Lemma onCommand_toggle_exec (h : Host) (st : State) :
  storage_get_error h = None →
  storage_set_error h = None →
  exec (onCommand h "toggle-contrast") st
  = with_storage st
      (<["contrastEnabled" := js_not (prop (storage st) "contrastEnabled")]> (storage st)).
Proof.
  intros Hget Hset. unfold exec. by rewrite onCommand_toggle_run, Hget, Hset.
Qed.

(** C7.  On ["toggle-contrast"], with the storage read and write going
    through, the listener stores the negation of the stored
    [contrastEnabled] (of [undefined] when there is none) under
    [contrastEnabled]; every other key keeps its entry, nothing is handed to
    [sendMessage], nothing is logged: the listener does not run a pass. *)
Theorem toggle_contrast_command (h : Host) (st : State) :
  storage_get_error h = None →
  storage_set_error h = None →
  let st' := exec (onCommand h "toggle-contrast") st in
  storage st' !! "contrastEnabled"
    = Some (JBool (negb (to_boolean (prop (storage st) "contrastEnabled"))))
  ∧ (∀ k, k ≠ "contrastEnabled" → storage st' !! k = storage st !! k)
  ∧ outbox st' = outbox st
  ∧ console st' = console st
  ∧ unhandled st' = unhandled st
  ∧ result (onCommand h "toggle-contrast") st = Ok tt.
Proof.
  intros Hget Hset. cbn zeta. unfold exec, result.
  rewrite onCommand_toggle_run, Hget, Hset.
  cbn [snd fst with_storage storage outbox console unhandled].
  split; [by rewrite lookup_insert_eq|].
  split; [|done].
  intros k Hk. by rewrite lookup_insert_ne.
Qed.

Lemma toggle_contrast_command_witness :
  storage (exec (onCommand Sample.host "toggle-contrast") (Sample.fresh Sample.store_all))
    !! "contrastEnabled" = Some (JBool false)
  ∧ storage (exec (onCommand Sample.host "toggle-contrast") (Sample.fresh ∅))
      !! "contrastEnabled" = Some (JBool true).
Proof.
  split.
  - exact (proj1 (toggle_contrast_command Sample.host (Sample.fresh Sample.store_all)
                    eq_refl eq_refl)).
  - exact (proj1 (toggle_contrast_command Sample.host (Sample.fresh ∅)
                    eq_refl eq_refl)).
Defined.

(** When the read or the write is rejected the listener stops there and
    nothing has changed. *)
Lemma toggle_contrast_rejected (h : Host) (st : State) :
  storage_get_error h ≠ None ∨ storage_set_error h ≠ None →
  exec (onCommand h "toggle-contrast") st = st.
Proof.
  intros Hrej. unfold exec. rewrite onCommand_toggle_run.
  destruct (storage_get_error h); [done|].
  destruct (storage_set_error h); [done|].
  by destruct Hrej.
Qed.

(** X16.  The cascade of the specification: once the command has turned
    the filter off, the pass that the storage listener runs sends
    [enabled: false] to every tab. *)
Lemma toggle_off_then_pass (h : Host) (st : State) :
  storage_get_error h = None →
  storage_set_error h = None →
  to_boolean (prop (storage st) "contrastEnabled") = true →
  let toggled := exec (onCommand h "toggle-contrast") st in
  outbox (exec (storage_onChanged h) toggled)
  = (outbox st ++ batch h (storage toggled))%list
  ∧ Forall (λ m, enabled (sent_msg m) = false) (batch h (storage toggled)).
Proof.
  intros Hget Hset Hon. cbn zeta.
  rewrite (onCommand_toggle_exec h st Hget Hset).
  unfold storage_onChanged. rewrite applyStylesToTabs_exec.
  cbn [with_storage storage outbox]. split; [reflexivity|].
  apply batch_all_off. intros tab.
  cbn [payload enabled]. rewrite apply_flag_eq.
  set (s' := <["contrastEnabled" := _]> (storage st)).
  fold (setting s' "contrastEnabled").
  assert (Hkey : "contrastEnabled" ∈ settings_keys) by (apply list_elem_of_here).
  rewrite (setting_present s' _ _ Hkey (lookup_insert_eq _ _ _)).
  unfold js_not. by rewrite Hon.
Qed.

(** ** The active window *)

Lemma lastFocused_id_truthy (lastFocused : option Window) :
  to_boolean (lastFocused_id lastFocused) = true
  ↔ ∃ n, lastFocused = Some (mkWindow (Some n)) ∧ n ≠ 0.
Proof.
  destruct lastFocused as [[[n|]]|]; simpl.
  - rewrite negb_true_iff, Z.eqb_neq. split.
    + intros Hn. by exists n.
    + by intros (m & [= <-] & Hm).
  - split; [done|]. by intros (m & [=] & _).
  - split; [done|]. by intros (m & [=] & _).
Qed.

Lemma updateActiveWindow_pair (h : Host) (st : State) :
  updateActiveWindow h st = (Ok tt, exec (updateActiveWindow h) st).
Proof.
  unfold exec. rewrite updateActiveWindow_run.
  destruct (windows_get_error h); [done|].
  destruct (to_boolean _); [|done].
  by destruct (storage_set_error h).
Qed.

Lemma updateActiveWindow_outbox (h : Host) (st : State) :
  outbox (exec (updateActiveWindow h) st) = outbox st.
Proof.
  unfold exec. rewrite updateActiveWindow_run.
  destruct (windows_get_error h); [done|].
  destruct (to_boolean _); [|done].
  by destruct (storage_set_error h).
Qed.

(** C9.  [updateActiveWindow] never throws, sends nothing, and touches no
    key of the storage area but [activeWindowId].  When the host reports a
    last focused window whose id passes the test of the source (an id that
    is there and is not [0]) and the write goes through, that id is stored
    under [activeWindowId] and nothing is logged.  When the window query or
    the write is rejected, the error is logged and the storage area is as
    before; when there is no such window, nothing happens at all. *)
Theorem updateActiveWindow_effect (h : Host) (st : State) :
  let st' := exec (updateActiveWindow h) st in
  result (updateActiveWindow h) st = Ok tt
  ∧ (∀ k, k ≠ "activeWindowId" → storage st' !! k = storage st !! k)
  ∧ outbox st' = outbox st
  ∧ (∀ n, windows_get_error h = None →
          last_focused h = Some (mkWindow (Some n)) → n ≠ 0 →
          storage_set_error h = None →
          st' = with_storage st (<["activeWindowId" := JNum n]> (storage st)))
  ∧ (∀ e, windows_get_error h = Some e →
          st' = with_console st "Could not update active window:" e)
  ∧ (∀ e, windows_get_error h = None →
          to_boolean (lastFocused_id (last_focused h)) = true →
          storage_set_error h = Some e →
          st' = with_console st "Could not update active window:" e)
  ∧ (windows_get_error h = None →
     to_boolean (lastFocused_id (last_focused h)) = false →
     st' = st).
Proof.
  cbn zeta. split; [apply updateActiveWindow_result|].
  split; [|split; [apply updateActiveWindow_outbox|]];
    unfold exec; rewrite updateActiveWindow_run.
  - intros k Hk.
    destruct (windows_get_error h); [done|].
    destruct (to_boolean _); [|done].
    destruct (storage_set_error h); [done|].
    cbn [snd with_storage storage]. by rewrite lookup_insert_ne.
  - split; [|split; [|split]].
    + intros n -> Hw Hn ->.
      assert (Ht : to_boolean (lastFocused_id (last_focused h)) = true)
        by (apply lastFocused_id_truthy; by exists n).
      rewrite Ht, Hw. reflexivity.
    + by intros e ->.
    + by intros e -> -> ->.
    + by intros -> ->.
Qed.

Lemma updateActiveWindow_effect_witness :
  storage (exec (updateActiveWindow Sample.host) (Sample.fresh Sample.store_window))
  = <["activeWindowId" := JNum 11]> Sample.store_window.
Proof.
  destruct (updateActiveWindow_effect Sample.host (Sample.fresh Sample.store_window))
    as (_ & _ & _ & Hwrite & _).
  cbn zeta in Hwrite.
  rewrite (Hwrite 11 eq_refl eq_refl ltac:(discriminate) eq_refl). reflexivity.
Defined.

(** ** Focus changes *)

(** The test of the listener, as written. *)
Lemma onFocusChanged_guard (h : Host) (windowId : Z) (st : State) :
  ((0 < windowId)%Z →
   onFocusChanged h windowId st
   = applyStylesToTabs h (exec (updateActiveWindow h) st))
  ∧ ((windowId <= 0)%Z → onFocusChanged h windowId st = (Ok tt, st)).
Proof.
  unfold onFocusChanged. split; intros Hw.
  - apply Z.ltb_lt in Hw. rewrite Hw. unfold bind.
    by rewrite updateActiveWindow_pair.
  - apply Z.ltb_ge in Hw. by rewrite Hw.
Qed.

(** C8.  For an id that the host delivers: when it is the id of a window
    (not [WINDOW_ID_NONE]), the listener runs [updateActiveWindow] to its
    end and then [applyStylesToTabs], the pass starting from the state that
    the update left, so that it reads the storage area as updated; when it
    is [WINDOW_ID_NONE] the listener does nothing. *)
Theorem onFocusChanged_order (h : Host) (windowId : Z) (st : State) :
  delivered_window_id windowId →
  (windowId ≠ WINDOW_ID_NONE →
     onFocusChanged h windowId st
     = applyStylesToTabs h (exec (updateActiveWindow h) st)
     ∧ outbox (exec (onFocusChanged h windowId) st)
       = (outbox st ++ batch h (storage (exec (updateActiveWindow h) st)))%list)
  ∧ (windowId = WINDOW_ID_NONE →
     onFocusChanged h windowId st = (Ok tt, st)).
Proof.
  intros [Hnone|Hpos]; split.
  - by intros Hreal.
  - intros _. subst windowId.
    by apply (proj2 (onFocusChanged_guard h WINDOW_ID_NONE st)).
  - intros _.
    pose proof (proj1 (onFocusChanged_guard h windowId st) Hpos) as Hrun.
    split; [exact Hrun|].
    unfold exec at 1. rewrite Hrun.
    fold (exec (applyStylesToTabs h) (exec (updateActiveWindow h) st)).
    rewrite applyStylesToTabs_exec. cbn [outbox].
    by rewrite updateActiveWindow_outbox.
  - intros ->. unfold WINDOW_ID_NONE in Hpos. lia.
Qed.

(** The focus moves to window 11 while the storage area still names
    window 10: the pass already works with 11. *)
Lemma onFocusChanged_order_witness :
  delivered_window_id 11
  ∧ map (λ s, (sent_to s, enabled (sent_msg s)))
        (outbox (exec (onFocusChanged Sample.host 11) (Sample.fresh Sample.store_window)))
    = [ (1, false); (2, true) ].
Proof.
  assert (Hd : delivered_window_id 11) by (right; reflexivity).
  split; [exact Hd|].
  destruct (onFocusChanged_order Sample.host 11 (Sample.fresh Sample.store_window) Hd)
    as [Hreal _].
  destruct (Hreal ltac:(discriminate)) as [_ Hout].
  rewrite Hout. vm_compute. reflexivity.
Defined.

(** With the two calls in the other order the pass would still send the
    stale window id's flags. *)
Example other_order_is_stale :
  map (λ s, (sent_to s, enabled (sent_msg s)))
      (outbox (exec (applyStylesToTabs Sample.host ;;; updateActiveWindow Sample.host)
                 (Sample.fresh Sample.store_window)))
  = [ (1, true); (2, false) ].
Proof. vm_compute. reflexivity. Qed.

(** ** Window scope without an active window *)

(** C10.  With the filter on, scope ['window'] and no [activeWindowId] in
    the storage area: the merged settings have no [activeWindowId] either
    (the defaults do not supply one), the property reads as [undefined], no
    window id of a tab is strictly equal to it, and every message of the
    pass carries [enabled: false], one per enumerated tab when the storage
    read and the tab query succeed. *)
Theorem window_scope_without_active_window (h : Host) (st : State) :
  storage st !! "contrastEnabled" = Some (JBool true) →
  storage st !! "scope" = Some (JStr "window") →
  storage st !! "activeWindowId" = None →
  merged (storage st) !! "activeWindowId" = None
  ∧ setting (storage st) "activeWindowId" = JUndefined
  ∧ (∀ tab, enabled (payload (merged (storage st)) tab) = false)
  ∧ outbox (exec (applyStylesToTabs h) st)
    = (outbox st ++ batch h (storage st))%list
  ∧ Forall (λ s, enabled (sent_msg s) = false) (batch h (storage st))
  ∧ (storage_get_error h = None → tabs_query_error h = None →
     map sent_to (batch h (storage st)) = map tab_id (enumerated h)).
Proof.
  intros Hon Hscope Habsent.
  assert (Hkey : "activeWindowId" ∈ settings_keys)
    by (do 5 apply list_elem_of_further; apply list_elem_of_here).
  assert (Hkey' : "scope" ∈ settings_keys)
    by (do 4 apply list_elem_of_further; apply list_elem_of_here).
  assert (Hmerged : merged (storage st) !! "activeWindowId" = None)
    by (by rewrite lookup_merged, Habsent).
  assert (Hundef : setting (storage st) "activeWindowId" = JUndefined)
    by (unfold setting, prop; by rewrite Hmerged).
  assert (Hflag : ∀ tab, enabled (payload (merged (storage st)) tab) = false).
  { intros tab. cbn [payload enabled]. rewrite apply_flag_eq.
    fold (setting (storage st) "scope").
    fold (setting (storage st) "activeWindowId").
    rewrite (setting_present _ _ _ Hkey' Hscope), Hundef.
    cbn. apply andb_false_r. }
  split; [exact Hmerged|]. split; [exact Hundef|]. split; [exact Hflag|].
  split; [by rewrite applyStylesToTabs_exec|].
  split.
  - by apply batch_all_off.
  - intros Hget Hquery. unfold batch. rewrite Hget, Hquery.
    rewrite map_map. reflexivity.
Qed.

Lemma window_scope_without_active_window_witness :
  map (λ s, (sent_to s, enabled (sent_msg s)))
      (outbox (exec (applyStylesToTabs Sample.host)
                 (Sample.fresh Sample.store_no_window)))
  = [ (1, false); (2, false) ].
Proof.
  destruct (window_scope_without_active_window Sample.host
              (Sample.fresh Sample.store_no_window)
              eq_refl eq_refl eq_refl) as (_ & _ & _ & Hout & _).
  rewrite Hout. vm_compute. reflexivity.
Defined.

(** ** Calls that are not awaited *)

Lemma applyStylesToTabs_pair (h : Host) (st : State) :
  applyStylesToTabs h st = (Ok tt, exec (applyStylesToTabs h) st).
Proof.
  unfold exec. rewrite applyStylesToTabs_run.
  by destruct (storage_get_error h), (tabs_query_error h).
Qed.

(** Calling the pass without awaiting it: the pass is run, and since its
    promise is never rejected nothing is left unhandled. *)
Lemma spawn_pass (h : Host) (st : State) :
  (let* q := call_async (applyStylesToTabs h) in detach q) st
  = (Ok tt, exec (applyStylesToTabs h) st).
Proof.
  unfold bind, call_async. by rewrite applyStylesToTabs_pair.
Qed.

Lemma updateActiveWindow_other_keys (h : Host) (st : State) (k : string) :
  k ≠ "activeWindowId" →
  storage (exec (updateActiveWindow h) st) !! k = storage st !! k.
Proof.
  intros Hk. unfold exec. rewrite updateActiveWindow_run.
  destruct (windows_get_error h); [done|].
  destruct (to_boolean _); [|done].
  destruct (storage_set_error h); [done|].
  cbn [snd with_storage storage]. by rewrite lookup_insert_ne.
Qed.

Lemma updateActiveWindow_unhandled (h : Host) (st : State) :
  unhandled (exec (updateActiveWindow h) st) = unhandled st.
Proof.
  unfold exec. rewrite updateActiveWindow_run.
  destruct (windows_get_error h); [done|].
  destruct (to_boolean _); [|done].
  by destruct (storage_set_error h).
Qed.

Lemma onStartup_run (h : Host) (st : State) :
  onStartup h st
  = (Ok tt, exec (applyStylesToTabs h) (exec (updateActiveWindow h) st)).
Proof.
  unfold onStartup. unfold bind at 1.
  rewrite updateActiveWindow_pair. apply spawn_pass.
Qed.

Lemma elem_of_filter_keys (k : string) :
  k ∈ filter_keys → k ∈ settings_keys ∧ k ≠ "activeWindowId".
Proof.
  unfold filter_keys, settings_keys. rewrite !elem_of_cons, elem_of_nil.
  intros [->|[->|[->|[->|[->|[]]]]]]; split; auto 10; discriminate.
Qed.

Lemma lookup_install_defaults (k : string) :
  k ∈ filter_keys → is_Some (install_defaults !! k).
Proof.
  unfold filter_keys. rewrite !elem_of_cons, elem_of_nil.
  intros [->|[->|[->|[->|[->|[]]]]]]; by eexists.
Qed.

Lemma lookup_install_defaults_other (k : string) :
  k ∉ filter_keys → install_defaults !! k = None.
Proof.
  unfold filter_keys. rewrite !not_elem_of_cons. intros (?&?&?&?&?&_).
  unfold install_defaults. by rewrite !lookup_insert_ne, lookup_empty.
Qed.

(** What a pass sends when the storage area holds the defaults under the
    five filter keys. *)
Lemma payload_at_defaults (s : gmap string jsval) (tab : Tab) :
  (∀ k, k ∈ filter_keys → s !! k = install_defaults !! k) →
  payload (merged s) tab = default_message.
Proof.
  intros Hs.
  assert (Hset : ∀ k v, k ∈ filter_keys → install_defaults !! k = Some v →
                        prop (merged s) k = v).
  { intros k v Hk Hv. apply (setting_present s k v).
    - by apply elem_of_filter_keys.
    - by rewrite Hs. }
  unfold payload, default_message. rewrite apply_flag_eq.
  rewrite (Hset "contrastEnabled" (JBool false)), (Hset "contrastLevel" (JNum 100)),
    (Hset "brightnessLevel" (JNum 100)), (Hset "saturationLevel" (JNum 100));
    try reflexivity; unfold filter_keys; rewrite !elem_of_cons; auto 10.
Qed.

Lemma batch_Forall (P : Message → Prop) (h : Host) (s : gmap string jsval) :
  (∀ tab, P (payload (merged s) tab)) →
  Forall (λ m, P (sent_msg m)) (batch h s).
Proof.
  intros HP. unfold batch.
  destruct (storage_get_error h); [constructor|].
  destruct (tabs_query_error h); [constructor|].
  apply Forall_forall. intros m Hm. apply list_elem_of_In in Hm.
  apply in_map_iff in Hm as (tab & <- & _). apply HP.
Qed.

Lemma pass_after_update (h : Host) (st : State) :
  let st' := exec (applyStylesToTabs h) (exec (updateActiveWindow h) st) in
  storage st' = storage (exec (updateActiveWindow h) st)
  ∧ outbox st' = (outbox st ++ batch h (storage st'))%list
  ∧ unhandled st' = unhandled st.
Proof.
  cbn zeta. rewrite applyStylesToTabs_exec. cbn [storage outbox unhandled].
  by rewrite updateActiveWindow_outbox, updateActiveWindow_unhandled.
Qed.

(** ** Install and startup *)

Lemma onInstalled_install_run (h : Host) (details : gmap string jsval) (st : State) :
  prop details "reason" = JStr "install" →
  onInstalled h details st =
  match storage_set_error h with
  | Some e => (Throw e, st)
  | None =>
      onStartup h (with_storage st (install_defaults ∪ storage st))
  end.
Proof.
  intros Hreason. unfold onInstalled. rewrite Hreason.
  cbn [strict_eq String.eqb Ascii.eqb Bool.eqb].
  unfold bind at 1. unfold bind at 1. unfold storage_local_set, await.
  destruct (storage_set_error h) as [e|]; reflexivity.
Qed.

(** X1.  A first install, with the storage writes going through: the
    listener ends normally; the five filter keys hold the defaults whatever
    was stored before; any other key but [activeWindowId] is as before;
    and the pass that follows sends the default message (filter off, all
    levels 100) to every tab it reaches. *)
Theorem onInstalled_fresh_install
    (h : Host) (details : gmap string jsval) (st : State) :
  prop details "reason" = JStr "install" →
  storage_set_error h = None →
  let st' := exec (onInstalled h details) st in
  result (onInstalled h details) st = Ok tt
  ∧ (∀ k, k ∈ filter_keys → storage st' !! k = install_defaults !! k)
  ∧ (∀ k, k ∉ filter_keys → k ≠ "activeWindowId" →
          storage st' !! k = storage st !! k)
  ∧ outbox st' = (outbox st ++ batch h (storage st'))%list
  ∧ Forall (λ m, sent_msg m = default_message) (batch h (storage st')).
Proof.
  intros Hreason Hset. cbn zeta. unfold exec, result.
  rewrite (onInstalled_install_run h details st Hreason), Hset, onStartup_run.
  cbn [fst snd].
  set (st0 := with_storage st (install_defaults ∪ storage st)).
  destruct (pass_after_update h st0) as (Hsto & Hout & _). cbn zeta in Hsto, Hout.
  assert (Hkeys : ∀ k, k ∈ filter_keys →
            storage (exec (applyStylesToTabs h) (exec (updateActiveWindow h) st0)) !! k
            = install_defaults !! k).
  { intros k Hk. rewrite Hsto.
    rewrite updateActiveWindow_other_keys by (by apply elem_of_filter_keys).
    destruct (lookup_install_defaults k Hk) as [v Hv].
    cbn [st0 with_storage storage]. rewrite Hv. by apply lookup_union_Some_l. }
  split; [reflexivity|]. split; [exact Hkeys|]. split; [|split].
  - intros k Hk Hne. rewrite Hsto, updateActiveWindow_other_keys by done.
    cbn [st0 with_storage storage].
    by rewrite lookup_union_r by (by apply lookup_install_defaults_other).
  - exact Hout.
  - apply (batch_Forall (λ m, m = default_message)). intros tab.
    by apply payload_at_defaults.
Qed.

Lemma onInstalled_fresh_install_witness :
  map (λ m, (sent_to m, sent_msg m))
      (outbox (exec (onInstalled Sample.host Event.install)
                 (Sample.fresh Sample.store_window)))
  = [ (1, default_message); (2, default_message) ]
  ∧ storage (exec (onInstalled Sample.host Event.install)
               (Sample.fresh Sample.store_window)) !! "contrastEnabled"
    = Some (JBool false).
Proof.
  destruct (onInstalled_fresh_install Sample.host Event.install
              (Sample.fresh Sample.store_window) eq_refl eq_refl)
    as (_ & Hkeys & _ & Hout & _).
  cbn zeta in Hkeys, Hout. split.
  - rewrite Hout. vm_compute. reflexivity.
  - rewrite Hkeys by (apply list_elem_of_here). reflexivity.
Defined.

(** X2.  Any other reason (an update, say): the listener writes no filter
    setting.  It does what the startup listener does, and every key but
    [activeWindowId] is as before. *)
Theorem onInstalled_keeps_settings
    (h : Host) (details : gmap string jsval) (st : State) :
  prop details "reason" ≠ JStr "install" →
  onInstalled h details st = onStartup h st
  ∧ ∀ k, k ≠ "activeWindowId" →
      storage (exec (onInstalled h details) st) !! k = storage st !! k.
Proof.
  intros Hreason.
  assert (Hrun : onInstalled h details st = onStartup h st).
  { unfold onInstalled, onStartup.
    destruct (strict_eq (prop details "reason") (JStr "install")) eqn:E;
      [by apply strict_eq_str in E|].
    reflexivity. }
  split; [exact Hrun|].
  intros k Hk. unfold exec. rewrite Hrun, onStartup_run. cbn [snd].
  rewrite applyStylesToTabs_storage. by apply updateActiveWindow_other_keys.
Qed.

Lemma onInstalled_keeps_settings_witness :
  storage (exec (onInstalled Sample.host Event.update)
             (Sample.fresh Sample.store_window)) !! "contrastLevel"
  = Some (JNum 80).
Proof.
  destruct (onInstalled_keeps_settings Sample.host Event.update
              (Sample.fresh Sample.store_window) ltac:(discriminate)) as [_ Hkeep].
  rewrite Hkeep by discriminate. reflexivity.
Defined.

(** X3.  A first install whose write of the defaults is rejected: the
    listener has no [try], so it ends there with that error; nothing is
    stored, the active window is not looked up, no pass runs. *)
Theorem onInstalled_write_rejected
    (h : Host) (details : gmap string jsval) (st : State) (e : JsError) :
  prop details "reason" = JStr "install" →
  storage_set_error h = Some e →
  onInstalled h details st = (Throw e, st).
Proof.
  intros Hreason Hset.
  by rewrite (onInstalled_install_run h details st Hreason), Hset.
Qed.

Lemma onInstalled_write_rejected_witness :
  onInstalled Event.read_only Event.install (Sample.fresh ∅)
  = (Throw Sample.unavailable, Sample.fresh ∅).
Proof.
  apply onInstalled_write_rejected; reflexivity.
Defined.

(** X4.  The startup listener never throws, whatever the host answers; it
    changes no key but [activeWindowId], leaves no rejection unhandled, and
    its pass reads the storage area as [updateActiveWindow] left it.  The
    focus listener, on a positive id, does exactly the same. *)
Theorem onStartup_effect (h : Host) (st : State) :
  let st' := exec (onStartup h) st in
  result (onStartup h) st = Ok tt
  ∧ storage st' = storage (exec (updateActiveWindow h) st)
  ∧ (∀ k, k ≠ "activeWindowId" → storage st' !! k = storage st !! k)
  ∧ outbox st' = (outbox st ++ batch h (storage st'))%list
  ∧ unhandled st' = unhandled st
  ∧ ∀ windowId, (0 < windowId)%Z → onFocusChanged h windowId st = onStartup h st.
Proof.
  cbn zeta.
  assert (Hexec : exec (onStartup h) st
                  = exec (applyStylesToTabs h) (exec (updateActiveWindow h) st))
    by (unfold exec at 1; by rewrite onStartup_run).
  rewrite Hexec. unfold result. rewrite onStartup_run. cbn [fst].
  destruct (pass_after_update h st) as (Hsto & Hout & Hun).
  cbn zeta in Hsto, Hout, Hun.
  split; [reflexivity|]. split; [exact Hsto|]. split; [|split; [|split]].
  - intros k Hk. rewrite Hsto. by apply updateActiveWindow_other_keys.
  - exact Hout.
  - exact Hun.
  - intros windowId Hpos.
    by rewrite (proj1 (onFocusChanged_guard h windowId st) Hpos),
      <- applyStylesToTabs_pair.
Qed.

(** ** Tab updates and requests from content scripts *)

(** X5.  The tab listener never throws and never writes to the storage
    area.  It runs a pass, which reaches every enumerated tab and not only
    the tab that was updated, exactly when the reported status is
    ['complete']; on any other change (another status, no status) it does
    nothing. *)
Theorem onUpdated_effect
    (h : Host) (tabId : Z) (changeInfo : gmap string jsval) (st : State) :
  let st' := exec (onUpdated h tabId changeInfo) st in
  result (onUpdated h tabId changeInfo) st = Ok tt
  ∧ storage st' = storage st
  ∧ (prop changeInfo "status" = JStr "complete" →
     st' = exec (applyStylesToTabs h) st
     ∧ outbox st' = (outbox st ++ batch h (storage st))%list)
  ∧ (prop changeInfo "status" ≠ JStr "complete" → st' = st).
Proof.
  cbn zeta.
  assert (Hrun : onUpdated h tabId changeInfo st
                 = (Ok tt, if strict_eq (prop changeInfo "status") (JStr "complete")
                           then exec (applyStylesToTabs h) st else st)).
  { unfold onUpdated. destruct (strict_eq _ _); [apply spawn_pass|reflexivity]. }
  assert (Hexec : exec (onUpdated h tabId changeInfo) st
                  = if strict_eq (prop changeInfo "status") (JStr "complete")
                    then exec (applyStylesToTabs h) st else st)
    by (unfold exec at 1; by rewrite Hrun).
  rewrite Hexec. unfold result. rewrite Hrun. cbn [fst]. clear Hrun Hexec.
  destruct (strict_eq (prop changeInfo "status") (JStr "complete")) eqn:E.
  - apply strict_eq_str in E.
    split; [reflexivity|]. split; [apply applyStylesToTabs_storage|].
    split; [|done]. intros _. split; [reflexivity|].
    by rewrite applyStylesToTabs_exec.
  - split; [reflexivity|]. split; [reflexivity|]. split; [|done].
    intros Hc. apply strict_eq_str in Hc. congruence.
Qed.

Lemma onUpdated_effect_witness :
  map sent_to (outbox (exec (onUpdated Sample.host 2 Event.complete)
                         (Sample.fresh Sample.store_all))) = [1; 2]
  ∧ exec (onUpdated Sample.host 2 Event.loading) (Sample.fresh Sample.store_all)
    = Sample.fresh Sample.store_all.
Proof.
  split.
  - destruct (onUpdated_effect Sample.host 2 Event.complete
                (Sample.fresh Sample.store_all)) as (_ & _ & Hc & _).
    destruct (Hc eq_refl) as [_ Hout]. rewrite Hout. vm_compute. reflexivity.
  - destruct (onUpdated_effect Sample.host 2 Event.loading
                (Sample.fresh Sample.store_all)) as (_ & _ & _ & Hn).
    apply Hn. discriminate.
Defined.

(** X6.  The message listener returns [true] for every message and every
    host, a failing one included, and never writes to the storage area.  A
    message whose [action] is ['getCurrentSettings'] runs a pass over all
    enumerated tabs, whoever the sender is; any other message has no
    effect. *)
Theorem onMessage_effect (h : Host) (msg sender : gmap string jsval) (st : State) :
  let st' := exec (onMessage h msg sender) st in
  result (onMessage h msg sender) st = Ok (JBool true)
  ∧ storage st' = storage st
  ∧ (prop msg "action" = JStr "getCurrentSettings" →
     st' = exec (applyStylesToTabs h) st
     ∧ outbox st' = (outbox st ++ batch h (storage st))%list)
  ∧ (prop msg "action" ≠ JStr "getCurrentSettings" → st' = st).
Proof.
  cbn zeta.
  assert (Hrun : onMessage h msg sender st
                 = (Ok (JBool true),
                    if strict_eq (prop msg "action") (JStr "getCurrentSettings")
                    then exec (applyStylesToTabs h) st else st)).
  { unfold onMessage. unfold bind at 1.
    destruct (strict_eq _ _); [by rewrite spawn_pass|reflexivity]. }
  assert (Hexec : exec (onMessage h msg sender) st
                  = if strict_eq (prop msg "action") (JStr "getCurrentSettings")
                    then exec (applyStylesToTabs h) st else st)
    by (unfold exec at 1; by rewrite Hrun).
  rewrite Hexec. unfold result. rewrite Hrun. cbn [fst]. clear Hrun Hexec.
  destruct (strict_eq (prop msg "action") (JStr "getCurrentSettings")) eqn:E.
  - apply strict_eq_str in E.
    split; [reflexivity|]. split; [apply applyStylesToTabs_storage|].
    split; [|done]. intros _. split; [reflexivity|].
    by rewrite applyStylesToTabs_exec.
  - split; [reflexivity|]. split; [reflexivity|]. split; [|done].
    intros Hc. apply strict_eq_str in Hc. congruence.
Qed.

Lemma onMessage_effect_witness :
  map sent_to (outbox (exec (onMessage Sample.host Event.ask ∅)
                         (Sample.fresh Sample.store_all))) = [1; 2]
  ∧ exec (onMessage Sample.host Event.other ∅) (Sample.fresh Sample.store_all)
    = Sample.fresh Sample.store_all.
Proof.
  split.
  - destruct (onMessage_effect Sample.host Event.ask ∅
                (Sample.fresh Sample.store_all)) as (_ & _ & Hc & _).
    destruct (Hc eq_refl) as [_ Hout]. rewrite Hout. vm_compute. reflexivity.
  - destruct (onMessage_effect Sample.host Event.other ∅
                (Sample.fresh Sample.store_all)) as (_ & _ & _ & Hn).
    apply Hn. discriminate.
Defined.

(** ** What a pass reads *)

Lemma merged_insert_other (s : gmap string jsval) (k k' : string) (v : jsval) :
  k ≠ k' → merged (<[k := v]> s) !! k' = merged s !! k'.
Proof.
  intros Hne. unfold merged.
  by rewrite !lookup_finalSettings, !lookup_pick, lookup_insert_ne.
Qed.

Lemma batch_ext (h : Host) (s1 s2 : gmap string jsval) :
  (∀ tab, payload (merged s1) tab = payload (merged s2) tab) →
  batch h s1 = batch h s2.
Proof.
  intros Hp. unfold batch.
  destruct (storage_get_error h); [done|].
  destruct (tabs_query_error h); [done|].
  apply map_ext. intros tab. unfold sent_for. by rewrite Hp.
Qed.

(** X7.  A pass reads the six settings keys and nothing else: over two
    storage areas that agree on those keys it works with the same settings
    and sends the same messages, and logs the same, whatever else the areas
    hold. *)
Theorem pass_reads_settings_keys_only
    (h : Host) (st : State) (s1 s2 : gmap string jsval) :
  (∀ k, k ∈ settings_keys → s1 !! k = s2 !! k) →
  merged s1 = merged s2
  ∧ outbox (exec (applyStylesToTabs h) (with_storage st s1))
    = outbox (exec (applyStylesToTabs h) (with_storage st s2))
  ∧ console (exec (applyStylesToTabs h) (with_storage st s1))
    = console (exec (applyStylesToTabs h) (with_storage st s2)).
Proof.
  intros Hagree.
  assert (Hm : merged s1 = merged s2).
  { unfold merged. f_equal. apply map_eq. intros k. rewrite !lookup_pick.
    destruct (decide (k ∈ settings_keys)); [by apply Hagree|done]. }
  split; [exact Hm|].
  rewrite !applyStylesToTabs_exec. cbn [with_storage storage outbox console].
  split; [|reflexivity]. f_equal. apply batch_ext. intros tab. by rewrite Hm.
Qed.

Lemma pass_reads_settings_keys_only_witness :
  outbox (exec (applyStylesToTabs Sample.host)
            (Sample.fresh (<["theme" := JStr "dark"]> Sample.store_window)))
  = outbox (exec (applyStylesToTabs Sample.host) (Sample.fresh Sample.store_window)).
Proof.
  apply (pass_reads_settings_keys_only Sample.host (Sample.fresh ∅)
           (<["theme" := JStr "dark"]> Sample.store_window) Sample.store_window).
  intros k Hk. apply lookup_insert_ne. intros <-.
  revert Hk. unfold settings_keys. rewrite !elem_of_cons, elem_of_nil.
  intros [?|[?|[?|[?|[?|[?|[]]]]]]]; discriminate.
Defined.

(** X8.  Writing a default out is invisible to a pass: when a key is
    missing and gets stored with the value that the defaults give it, the
    merged settings are the same as before and so are the messages. *)
Theorem explicit_default_is_invisible
    (h : Host) (s : gmap string jsval) (k : string) (v : jsval) :
  s !! k = None →
  install_defaults !! k = Some v →
  merged (<[k := v]> s) = merged s
  ∧ batch h (<[k := v]> s) = batch h s.
Proof.
  intros Hnone Hdef.
  assert (Hm : merged (<[k := v]> s) = merged s).
  { apply map_eq. intros k'. unfold merged.
    rewrite !lookup_finalSettings, !lookup_pick.
    destruct (decide (k = k')) as [<-|Hne].
    - rewrite lookup_insert_eq, Hnone.
      destruct (decide (k ∈ settings_keys)); by rewrite ?Hdef.
    - by rewrite lookup_insert_ne. }
  split; [exact Hm|]. apply batch_ext. intros tab. by rewrite Hm.
Qed.

Lemma explicit_default_is_invisible_witness :
  batch Sample.host (<["scope" := JStr "all"]> {[ "contrastEnabled" := JBool true ]})
  = batch Sample.host {[ "contrastEnabled" := JBool true ]}.
Proof.
  apply (explicit_default_is_invisible Sample.host
           {[ "contrastEnabled" := JBool true ]} "scope" (JStr "all"));
    reflexivity.
Defined.

(** X9.  [activeWindowId] matters in window scope only: with the filter
    off, or with a scope other than ['window'], storing any value under
    [activeWindowId] changes no message of a pass. *)
Theorem active_window_unused_outside_window_scope
    (h : Host) (s : gmap string jsval) (v : jsval) :
  to_boolean (setting s "contrastEnabled") = false
  ∨ setting s "scope" ≠ JStr "window" →
  batch h (<["activeWindowId" := v]> s) = batch h s.
Proof.
  intros Hcase. apply batch_ext. intros tab.
  assert (Hp : ∀ k, k ≠ "activeWindowId" →
            prop (merged (<["activeWindowId" := v]> s)) k = prop (merged s) k).
  { intros k Hk. unfold prop. by rewrite merged_insert_other. }
  unfold payload. rewrite !apply_flag_eq.
  rewrite !(Hp "contrastEnabled"), !(Hp "scope"), !(Hp "contrastLevel"),
    !(Hp "brightnessLevel"), !(Hp "saturationLevel") by discriminate.
  f_equal. unfold setting in Hcase. destruct Hcase as [Hoff|Hscope].
  - by rewrite Hoff.
  - destruct (strict_eq (prop (merged s) "scope") (JStr "window")) eqn:E;
      [by apply strict_eq_str in E|].
    reflexivity.
Qed.

Lemma active_window_unused_outside_window_scope_witness :
  batch Sample.host (<["activeWindowId" := JNum 11]> Sample.store_all)
  = batch Sample.host Sample.store_all.
Proof.
  apply active_window_unused_outside_window_scope.
  right. vm_compute. discriminate.
Defined.

(** X10.  The merged settings always have the five filter keys, whatever
    the storage area holds; they have [activeWindowId] exactly when the
    storage area has it, and no key outside the six that are read. *)
Theorem merged_keys (s : gmap string jsval) :
  (∀ k, k ∈ filter_keys → is_Some (merged s !! k))
  ∧ merged s !! "activeWindowId" = s !! "activeWindowId"
  ∧ (∀ k, k ∉ settings_keys → merged s !! k = None).
Proof.
  split; [|split].
  - intros k Hk. destruct (elem_of_filter_keys k Hk) as [Hin _].
    rewrite lookup_merged by done.
    destruct (s !! k); [by eexists|]. by apply lookup_install_defaults.
  - rewrite lookup_merged by (do 5 apply list_elem_of_further; apply list_elem_of_here).
    by destruct (s !! "activeWindowId").
  - intros k Hk. unfold merged. rewrite lookup_finalSettings, lookup_pick.
    rewrite decide_False by done. apply lookup_install_defaults_other.
    intros Hin. by destruct (elem_of_filter_keys k Hin).
Qed.


(** ** Window scope follows the focus *)

Lemma updateActiveWindow_stores (h : Host) (st : State) (n : Z) :
  windows_get_error h = None →
  storage_set_error h = None →
  last_focused h = Some (mkWindow (Some n)) →
  n ≠ 0 →
  exec (updateActiveWindow h) st
  = with_storage st (<["activeWindowId" := JNum n]> (storage st)).
Proof.
  intros Hget Hset Hw Hn. unfold exec. rewrite updateActiveWindow_run, Hget, Hset.
  assert (Ht : to_boolean (lastFocused_id (last_focused h)) = true)
    by (apply lastFocused_id_truthy; by exists n).
  by rewrite Ht, Hw.
Qed.

(** X12.  In window scope with the filter on, after a focus change the
    filter is on for exactly the tabs of the window that the host reports
    as last focused: the listener stores that window's id and its pass
    sends [enabled: true] to a tab if and only if the tab is in that
    window.  The id that the event carries is not used, beyond being
    positive. *)
Theorem window_scope_follows_focus
    (h : Host) (windowId n : Z) (st : State) :
  (0 < windowId)%Z →
  windows_get_error h = None →
  storage_set_error h = None →
  last_focused h = Some (mkWindow (Some n)) →
  n ≠ 0 →
  to_boolean (setting (storage st) "contrastEnabled") = true →
  setting (storage st) "scope" = JStr "window" →
  let st' := exec (onFocusChanged h windowId) st in
  storage st' = <["activeWindowId" := JNum n]> (storage st)
  ∧ outbox st' = (outbox st ++ batch h (storage st'))%list
  ∧ ∀ tab, enabled (payload (merged (storage st')) tab)
           = Z.eqb (tab_windowId tab) n.
Proof.
  intros Hpos Hget Hset Hw Hn Hon Hscope. cbn zeta.
  assert (Hexec : exec (onFocusChanged h windowId) st
                  = exec (applyStylesToTabs h)
                      (with_storage st (<["activeWindowId" := JNum n]> (storage st)))).
  { unfold exec at 1.
    rewrite (proj1 (onFocusChanged_guard h windowId st) Hpos).
    by rewrite (updateActiveWindow_stores h st n). }
  rewrite Hexec, applyStylesToTabs_exec. cbn [with_storage storage outbox].
  split; [reflexivity|]. split; [reflexivity|].
  intros tab. cbn [payload enabled]. rewrite apply_flag_eq.
  set (s' := <["activeWindowId" := JNum n]> (storage st)).
  assert (Hp : ∀ k, k ≠ "activeWindowId" →
            prop (merged s') k = setting (storage st) k).
  { intros k Hk. unfold setting, prop, s'. by rewrite merged_insert_other. }
  rewrite !(Hp "contrastEnabled"), !(Hp "scope") by discriminate.
  rewrite Hon, Hscope.
  fold (setting s' "activeWindowId").
  rewrite (setting_present s' "activeWindowId" (JNum n));
    [reflexivity | do 5 apply list_elem_of_further; apply list_elem_of_here
     | apply lookup_insert_eq].
Qed.

Lemma window_scope_follows_focus_witness :
  map (λ tab, (tab_id tab,
               enabled (payload
                 (merged (storage (exec (onFocusChanged Sample.host 11)
                                     (Sample.fresh Sample.store_window)))) tab)))
      (enumerated Sample.host)
  = [ (1, false); (2, true) ].
Proof.
  destruct (window_scope_follows_focus Sample.host 11 11
              (Sample.fresh Sample.store_window)
              eq_refl eq_refl eq_refl eq_refl ltac:(discriminate) eq_refl eq_refl)
    as (_ & _ & Hflag).
  cbn zeta in Hflag.
  change (enumerated Sample.host) with [Sample.tab1; Sample.tab2].
  cbn [map]. rewrite !Hflag. reflexivity.
Defined.

(** X13.  [updateActiveWindow] twice is [updateActiveWindow] once, as far
    as the storage area goes; with the window query and the write
    succeeding the whole state after the second run is the state after the
    first. *)
Theorem updateActiveWindow_twice (h : Host) (st : State) :
  let once := exec (updateActiveWindow h) st in
  let twice := exec (updateActiveWindow h) once in
  storage twice = storage once
  ∧ outbox twice = outbox st
  ∧ unhandled twice = unhandled st
  ∧ (windows_get_error h = None → storage_set_error h = None → twice = once).
Proof.
  cbn zeta. unfold exec. rewrite !updateActiveWindow_run.
  destruct (windows_get_error h) as [e|]; [by repeat split|].
  destruct (to_boolean _); [|by repeat split].
  destruct (storage_set_error h) as [e|]; [by repeat split|].
  cbn [snd with_storage storage outbox console unhandled].
  rewrite insert_insert_eq. by repeat split.
Qed.

(** ** More on the keyboard command *)

(** X14.  The command listener catches nothing: when the storage read, or
    else the write, is rejected, the listener ends with that very error and
    the state is untouched. *)
Theorem toggle_contrast_not_caught (h : Host) (st : State) (e : JsError) :
  storage_get_error h = Some e
  ∨ (storage_get_error h = None ∧ storage_set_error h = Some e) →
  onCommand h "toggle-contrast" st = (Throw e, st).
Proof.
  intros [Hget|[Hget Hset]]; rewrite onCommand_toggle_run, Hget; [done|].
  by rewrite Hset.
Qed.

Lemma toggle_contrast_not_caught_witness :
  onCommand Event.unreadable "toggle-contrast" (Sample.fresh Sample.store_all)
  = (Throw Sample.unavailable, Sample.fresh Sample.store_all)
  ∧ onCommand Event.read_only "toggle-contrast" (Sample.fresh Sample.store_all)
    = (Throw Sample.unavailable, Sample.fresh Sample.store_all).
Proof.
  split; apply toggle_contrast_not_caught; [left|right; split]; reflexivity.
Defined.

Lemma to_boolean_setting_contrastEnabled (s : gmap string jsval) :
  to_boolean (setting s "contrastEnabled") = to_boolean (prop s "contrastEnabled").
Proof.
  assert (Hkey : "contrastEnabled" ∈ settings_keys) by (apply list_elem_of_here).
  unfold prop. destruct (s !! "contrastEnabled") as [v|] eqn:E.
  - by rewrite (setting_present s _ v Hkey E).
  - by rewrite (setting_absent s _ Hkey E).
Qed.

(** X15.  Two toggles in a row, with the storage calls going through,
    leave under [contrastEnabled] the boolean that the original value
    tested as; a stored boolean is back exactly, with the whole state, and
    in every case a pass sends what it would have sent before the two
    toggles. *)
Theorem toggle_twice (h : Host) (st : State) :
  storage_get_error h = None →
  storage_set_error h = None →
  let twice := exec (onCommand h "toggle-contrast")
                 (exec (onCommand h "toggle-contrast") st) in
  storage twice
  = <["contrastEnabled" := JBool (to_boolean (prop (storage st) "contrastEnabled"))]>
      (storage st)
  ∧ (∀ b, storage st !! "contrastEnabled" = Some (JBool b) → twice = st)
  ∧ batch h (storage twice) = batch h (storage st).
Proof.
  intros Hget Hset. cbn zeta.
  rewrite !(onCommand_toggle_exec h _ Hget Hset).
  cbn [with_storage storage outbox console unhandled].
  assert (Hsto :
    <["contrastEnabled" :=
        js_not (prop (<["contrastEnabled" := js_not (prop (storage st) "contrastEnabled")]>
                        (storage st)) "contrastEnabled")]>
      (<["contrastEnabled" := js_not (prop (storage st) "contrastEnabled")]> (storage st))
    = <["contrastEnabled" := JBool (to_boolean (prop (storage st) "contrastEnabled"))]>
        (storage st)).
  { rewrite insert_insert_eq. f_equal. unfold prop at 1.
    rewrite lookup_insert_eq. unfold js_not. cbn [default id to_boolean].
    by rewrite negb_involutive. }
  rewrite Hsto. split; [reflexivity|]. split.
  - intros b Hb. unfold prop. rewrite Hb. cbn [default id to_boolean].
    unfold with_storage. cbn [storage outbox console unhandled].
    rewrite (insert_id (storage st) _ _ Hb). by destruct st.
  - apply batch_ext. intros tab.
    set (v := JBool (to_boolean (prop (storage st) "contrastEnabled"))).
    assert (Hp : ∀ k, k ≠ "contrastEnabled" →
              prop (merged (<["contrastEnabled" := v]> (storage st))) k
              = prop (merged (storage st)) k).
    { intros k Hk. unfold prop. by rewrite merged_insert_other. }
    unfold payload. rewrite !apply_flag_eq.
    rewrite !(Hp "scope"), !(Hp "activeWindowId"), !(Hp "contrastLevel"),
      !(Hp "brightnessLevel"), !(Hp "saturationLevel") by discriminate.
    fold (setting (<["contrastEnabled" := v]> (storage st)) "contrastEnabled").
    fold (setting (storage st) "contrastEnabled").
    rewrite !to_boolean_setting_contrastEnabled. unfold prop at 1.
    rewrite lookup_insert_eq. reflexivity.
Qed.

Lemma toggle_twice_witness :
  exec (onCommand Sample.host "toggle-contrast")
    (exec (onCommand Sample.host "toggle-contrast") (Sample.fresh Sample.store_all))
  = Sample.fresh Sample.store_all.
Proof.
  destruct (toggle_twice Sample.host (Sample.fresh Sample.store_all) eq_refl eq_refl)
    as (_ & Hback & _).
  apply (Hback true). reflexivity.
Defined.

Lemma toggle_off_then_pass_witness :
  map (λ m, (sent_to m, enabled (sent_msg m)))
      (outbox (exec (storage_onChanged Sample.host)
                 (exec (onCommand Sample.host "toggle-contrast")
                    (Sample.fresh Sample.store_all))))
  = [ (1, false); (2, false) ].
Proof.
  destruct (toggle_off_then_pass Sample.host (Sample.fresh Sample.store_all)
              eq_refl eq_refl eq_refl) as [Hout _].
  cbn zeta in Hout. rewrite Hout. vm_compute. reflexivity.
Defined.
